(** * Hotel reservation system: a shallow embedding of hotel.py, customer.py
    and reservation.py, and the properties of the three record stores.

    The three Python modules keep one JSON file each (hotels.json,
    customers.json, reservations.json).  Every operation reloads the whole
    file, changes one record and rewrites the whole file.  The embedding
    follows that shape:

    - a Python/JSON value is a [value]; attributes of the entity classes are
      dynamically typed, so the fields of [Hotel.t], [Customer.t] and
      [Reservation.t] are [value]s, exactly what [from_dict] stores in them;
    - a dict with string keys (a parsed JSON object, the loaded stores) is a
      [gmap string _];
    - the process state is a [world]: the three files and the text printed
      so far ([stdout], a list of [event]s, one per [print] call);
    - a static method is a computation in the monad [M] (state and uncaught
      Python exceptions).

    Assumptions of the model: JSON numbers are integers (no floats); the
    file system performs every write (the [OSError] branch of the [_save_*]
    functions is never taken); one load visits the records in the key order
    of the map rather than in the order of the file, which only decides the
    order of its diagnostics.  The identifiers and names a caller passes are
    strings and the room totals integers; what a file holds is not
    constrained. *)

From Stdlib Require Import ZArith String.
From stdpp Require Import gmap strings list fin_maps.

Set Warnings "-register-all".
#[local] Open Scope string_scope.
#[local] Open Scope list_scope.

(** ** Python values and exceptions *)

Inductive value : Type :=
| VNone
| VBool (b : bool)
| VInt (z : Z)
| VStr (s : string)
| VList (l : list value)
| VDict (d : gmap string value).

Inductive exn : Type :=
| KeyError (k : string)
| TypeError
| AttributeError.

Inductive outcome (A : Type) : Type :=
| Return (a : A)
| Raise (e : exn).
Arguments Return {A} a.
Arguments Raise {A} e.

Definition returned {A} (o : outcome A) : option A :=
  match o with Return a => Some a | Raise _ => None end.

Definition raised {A} (o : outcome A) : option exn :=
  match o with Return _ => None | Raise e => Some e end.

(** The clause [except (KeyError, TypeError)] of the loaders. *)
Definition caught (e : exn) : bool :=
  match e with
  | KeyError _ | TypeError => true
  | AttributeError => false
  end.

(** [int(v)] for the values Python does arithmetic on: [bool] is a subclass
    of [int]. *)
Definition as_int (v : value) : option Z :=
  match v with
  | VInt z => Some z
  | VBool b => Some (Z.b2z b)
  | _ => None
  end.

(** [data[k]] for a string [k]: only a dict can be subscripted by a string. *)
Definition subscript (data : value) (k : string) : outcome value :=
  match data with
  | VDict d =>
      match d !! k with
      | Some v => Return v
      | None => Raise (KeyError k)
      end
  | _ => Raise TypeError
  end.

(** [data.get(k, dflt)]. *)
Definition dict_get (data : value) (k : string) (dflt : value) : outcome value :=
  match data with
  | VDict d => Return (default dflt (d !! k))
  | _ => Raise AttributeError
  end.

(** [v <= n], [v + n] and [n - v] for an integer [n]. *)
Definition py_le (v : value) (n : Z) : outcome bool :=
  match as_int v with
  | Some a => Return (a <=? n)%Z
  | None => Raise TypeError
  end.

Definition py_add (v : value) (n : Z) : outcome Z :=
  match as_int v with
  | Some a => Return (a + n)%Z
  | None => Raise TypeError
  end.

Definition py_rsub (n : Z) (v : value) : outcome Z :=
  match as_int v with
  | Some a => Return (n - a)%Z
  | None => Raise TypeError
  end.

(** [min(v, n)]: Python keeps the first argument unless [n < v]. *)
Definition py_min (v : value) (n : Z) : outcome value :=
  match as_int v with
  | Some a => Return (if (n <? a)%Z then VInt n else v)
  | None => Raise TypeError
  end.

(** [max(0, n)]: the literal 0 is kept unless [n > 0]. *)
Definition py_max0 (n : Z) : value :=
  VInt (if (0 <? n)%Z then n else 0%Z).

(** [x == s] for a string [s]. *)
Definition is_str (s : string) (x : value) : bool :=
  match x with
  | VStr s' => bool_decide (s' = s)
  | _ => false
  end.

(** [s in t] on strings is the substring test. *)
Fixpoint occurs_in (s t : string) : bool :=
  String.prefix s t ||
  match t with
  | EmptyString => false
  | String _ t' => occurs_in s t'
  end.

(** [s in v] for a string [s]. *)
Definition py_contains (v : value) (s : string) : outcome bool :=
  match v with
  | VList l => Return (existsb (is_str s) l)
  | VStr t => Return (occurs_in s t)
  | VDict d => Return (bool_decide (is_Some (d !! s)))
  | VNone | VBool _ | VInt _ => Raise TypeError
  end.

(** [l.remove(s)] on a list that contains [s]: the first equal element goes. *)
Fixpoint remove_first (s : string) (l : list value) : list value :=
  match l with
  | [] => []
  | x :: l' => if is_str s x then l' else x :: remove_first s l'
  end.

(** [v.remove(s)], reached only after [s in v] was true. *)
Definition py_remove (v : value) (s : string) : outcome value :=
  match v with
  | VList l => Return (VList (remove_first s l))
  | _ => Raise AttributeError
  end.

(** [v.append(x)]. *)
Definition py_append (v : value) (x : value) : outcome value :=
  match v with
  | VList l => Return (VList (l ++ [x]))
  | _ => Raise AttributeError
  end.

(** [k in d] and [d[k]] for a dict [d] whose keys are strings: a list or a
    dict is unhashable, every other non-string key is simply absent. *)
Definition py_lookup {A} (d : gmap string A) (k : value) : outcome (option (string * A)) :=
  match k with
  | VStr s => Return ((λ a, (s, a)) <$> d !! s)
  | VList _ | VDict _ => Raise TypeError
  | VNone | VBool _ | VInt _ => Return None
  end.

(** Truth value of an optional string argument: [None] and [""] are false. *)
Definition truthy (a : option string) : option string :=
  match a with
  | Some EmptyString => None
  | _ => a
  end.

(** ** Files, printed messages and the process state *)

Inductive store : Type := Hotels | Customers | Reservations.

(** What [open] and [json.load] find: no file, a file that cannot be read or
    parsed ([OSError], [JSONDecodeError]), or a parsed JSON document. *)
Inductive file : Type :=
| NoFile
| Unreadable
| Parsed (v : value).

(** The messages the sources print. *)
Inductive event : Type :=
| ReadError (s : store)                          (* "Error reading ... file" *)
| RecordError (s : store) (k : string) (e : exn) (* "Error loading ... record" *)
| AlreadyExists (s : store) (id : string)        (* "... already exists." *)
| NotFound (s : store) (id : value)              (* "... not found." *)
| CustomerNotFound (id : string)                 (* "... Cannot create reservation." *)
| NoAvailability (hotel_id : string)             (* "No available rooms ..." *)
| ReservationNotOnRecord (reservation_id : string) (hotel_id : value)
| Created (s : store) (id : string)
| Deleted (s : store) (id : string)
| Modified (s : store) (id : string)
| RoomReserved (hotel_id reservation_id : string)
| RoomCancelled (reservation_id : string) (hotel_id : value)
| Cancelled (reservation_id : string).

Record world : Type := World {
  hotels_file : file;
  customers_file : file;
  reservations_file : file;
  stdout : list event;
}.

Definition file_of (s : store) (w : world) : file :=
  match s with
  | Hotels => hotels_file w
  | Customers => customers_file w
  | Reservations => reservations_file w
  end.

Definition write_file (s : store) (f : file) (w : world) : world :=
  match s with
  | Hotels => World f (customers_file w) (reservations_file w) (stdout w)
  | Customers => World (hotels_file w) f (reservations_file w) (stdout w)
  | Reservations => World (hotels_file w) (customers_file w) f (stdout w)
  end.

Definition write_stdout (es : list event) (w : world) : world :=
  World (hotels_file w) (customers_file w) (reservations_file w) (stdout w ++ es).

(** ** The monad of the static methods *)

Definition M (A : Type) : Type := world → outcome A * world.

#[global] Instance M_ret : MRet M := λ A a w, (Return a, w).

#[global] Instance M_bind : MBind M := λ A B k m w,
  match m w with
  | (Return a, w') => k a w'
  | (Raise e, w') => (Raise e, w')
  end.

Definition lift {A} (o : outcome A) : M A := λ w, (o, w).

Definition print (e : event) : M unit := λ w, (Return tt, write_stdout [e] w).

(** ** Record stores: [_load_*] and [_save_*]

    The three modules repeat the same two functions; they differ in the
    file and in [from_dict] / [to_dict]. *)

Section record_store.
Context {E : Type} (s : store) (from_dict : value → outcome E) (to_dict : E → value).

(** The [for k, v in data.items()] loop with its inner [try]: a record on
    which [from_dict] raises a [KeyError] or a [TypeError] is reported and
    skipped; any other exception leaves the loader. *)
Fixpoint load_loop (items : list (string * value)) (records : gmap string E)
    : M (gmap string E) :=
  match items with
  | [] => mret records
  | (k, v) :: items =>
      match from_dict v with
      | Return x => load_loop items (<[k := x]> records)
      | Raise e =>
          if caught e then
            print (RecordError s k e);;
            load_loop items records
          else lift (Raise e)
      end
  end.

Definition load_records : M (gmap string E) := λ w,
  match file_of s w with
  | NoFile => (Return ∅, w)
  | Unreadable => (Return ∅, write_stdout [ReadError s] w)
  | Parsed (VDict data) => load_loop (map_to_list data) ∅ w
  | Parsed _ => (Raise AttributeError, w)     (* [data.items()] *)
  end.

Definition save_records (records : gmap string E) : M unit := λ w,
  (Return tt, write_file s (Parsed (VDict (to_dict <$> records))) w).

(** The store as the next call sees it: what a load returns in [w]. *)
Definition stored (w : world) : option (gmap string E) :=
  returned (load_records w).1.

(** The messages one load prints for the records [items], and the records
    it keeps. *)
Definition record_errors (items : list (string * value)) : list event :=
  omap (λ kv, RecordError s kv.1 <$> raised (from_dict kv.2)) items.

Definition loaded (items : list (string * value)) (records : gmap string E)
    : gmap string E :=
  foldl (λ m kv, match from_dict kv.2 with
                 | Return x => <[kv.1 := x]> m
                 | Raise _ => m
                 end) records items.
End record_store.

(** ** customer.py *)

Module Customer.

Record t : Type := mk {
  customer_id : value;
  name : value;
  email : value;
  phone : value;
}.

Definition to_dict (self : t) : value :=
  VDict (<["customer_id" := customer_id self]>
        (<["name" := name self]>
        (<["email" := email self]>
        (<["phone" := phone self]> ∅)))).

Definition from_dict (data : value) : outcome t :=
  match subscript data "customer_id" with Raise e => Raise e | Return customer_id =>
  match subscript data "name" with Raise e => Raise e | Return name =>
  match subscript data "email" with Raise e => Raise e | Return email =>
  match subscript data "phone" with Raise e => Raise e | Return phone =>
  Return (mk customer_id name email phone)
  end end end end.

Definition _load_customers : M (gmap string t) := load_records Customers from_dict.

Definition _save_customers (customers : gmap string t) : M unit :=
  save_records Customers to_dict customers.

Definition create_customer (customer_id name email phone : string) : M (option t) :=
  customers ← _load_customers;
  match customers !! customer_id with
  | Some _ =>
      print (AlreadyExists Customers customer_id);;
      mret None
  | None =>
      let customer := mk (VStr customer_id) (VStr name) (VStr email) (VStr phone) in
      _save_customers (<[customer_id := customer]> customers);;
      print (Created Customers name);;
      mret (Some customer)
  end.


(** Attribute assignments [customer.name = v], ... *)
Definition set_name (v : value) (self : t) : t :=
  mk (customer_id self) v (email self) (phone self).



End Customer.

(** ** hotel.py *)

Module Hotel.

Record t : Type := mk {
  hotel_id : value;
  name : value;
  location : value;
  total_rooms : value;
  available_rooms : value;
  reservations : value;
}.

(** Attribute assignments [hotel.name = v], ... *)
Definition set_name (v : value) (self : t) : t :=
  mk (hotel_id self) v (location self) (total_rooms self)
     (available_rooms self) (reservations self).
Definition set_location (v : value) (self : t) : t :=
  mk (hotel_id self) (name self) v (total_rooms self)
     (available_rooms self) (reservations self).
Definition set_total_rooms (v : value) (self : t) : t :=
  mk (hotel_id self) (name self) (location self) v
     (available_rooms self) (reservations self).
Definition set_available_rooms (v : value) (self : t) : t :=
  mk (hotel_id self) (name self) (location self) (total_rooms self)
     v (reservations self).
Definition set_reservations (v : value) (self : t) : t :=
  mk (hotel_id self) (name self) (location self) (total_rooms self)
     (available_rooms self) v.

(** [Hotel.__init__]. *)
Definition init (hotel_id name location total_rooms : value) : t :=
  mk hotel_id name location total_rooms total_rooms (VList []).

Definition to_dict (self : t) : value :=
  VDict (<["hotel_id" := hotel_id self]>
        (<["name" := name self]>
        (<["location" := location self]>
        (<["total_rooms" := total_rooms self]>
        (<["available_rooms" := available_rooms self]>
        (<["reservations" := reservations self]> ∅)))))).

Definition from_dict (data : value) : outcome t :=
  match subscript data "hotel_id" with Raise e => Raise e | Return hotel_id =>
  match subscript data "name" with Raise e => Raise e | Return name =>
  match subscript data "location" with Raise e => Raise e | Return location =>
  match subscript data "total_rooms" with Raise e => Raise e | Return total_rooms =>
  let hotel := init hotel_id name location total_rooms in
  match dict_get data "available_rooms" total_rooms with Raise e => Raise e | Return available =>
  match dict_get data "reservations" (VList []) with Raise e => Raise e | Return occupants =>
  Return (set_reservations occupants (set_available_rooms available hotel))
  end end end end end end.

Definition _load_hotels : M (gmap string t) := load_records Hotels from_dict.

Definition _save_hotels (hotels : gmap string t) : M unit :=
  save_records Hotels to_dict hotels.

Definition create_hotel (hotel_id name location : string) (total_rooms : Z) : M (option t) :=
  hotels ← _load_hotels;
  match hotels !! hotel_id with
  | Some _ =>
      print (AlreadyExists Hotels hotel_id);;
      mret None
  | None =>
      let hotel := init (VStr hotel_id) (VStr name) (VStr location) (VInt total_rooms) in
      _save_hotels (<[hotel_id := hotel]> hotels);;
      print (Created Hotels name);;
      mret (Some hotel)
  end.

Definition delete_hotel (hotel_id : string) : M bool :=
  hotels ← _load_hotels;
  match hotels !! hotel_id with
  | None =>
      print (NotFound Hotels (VStr hotel_id));;
      mret false
  | Some _ =>
      _save_hotels (delete hotel_id hotels);;
      print (Deleted Hotels hotel_id);;
      mret true
  end.

(** The body of [modify_hotel] between the lookup and the save. *)
Definition modified (new_name new_location : option string) (new_total : option Z)
    (hotel : t) : outcome t :=
  let hotel := match truthy new_name with
               | Some n => set_name (VStr n) hotel
               | None => hotel
               end in
  let hotel := match truthy new_location with
               | Some l => set_location (VStr l) hotel
               | None => hotel
               end in
  match new_total with
  | None => Return hotel
  | Some n =>
      match py_rsub n (total_rooms hotel) with Raise e => Raise e | Return diff =>
      let hotel := set_total_rooms (VInt n) hotel in
      match py_add (available_rooms hotel) diff with Raise e => Raise e | Return a =>
      Return (set_available_rooms (py_max0 a) hotel)
      end end
  end.

Definition modify_hotel (hotel_id : string) (name location : option string)
    (total_rooms : option Z) : M bool :=
  hotels ← _load_hotels;
  match hotels !! hotel_id with
  | None =>
      print (NotFound Hotels (VStr hotel_id));;
      mret false
  | Some hotel =>
      hotel ← lift (modified name location total_rooms hotel);
      _save_hotels (<[hotel_id := hotel]> hotels);;
      print (Modified Hotels hotel_id);;
      mret true
  end.

Definition reserve_room (hotel_id reservation_id : string) : M bool :=
  hotels ← _load_hotels;
  match hotels !! hotel_id with
  | None =>
      print (NotFound Hotels (VStr hotel_id));;
      mret false
  | Some hotel =>
      full ← lift (py_le (available_rooms hotel) 0);
      if (full : bool) then
        print (NoAvailability hotel_id);;
        mret false
      else
        a ← lift (py_add (available_rooms hotel) (-1));
        let hotel := set_available_rooms (VInt a) hotel in
        occupants ← lift (py_append (reservations hotel) (VStr reservation_id));
        let hotel := set_reservations occupants hotel in
        _save_hotels (<[hotel_id := hotel]> hotels);;
        print (RoomReserved hotel_id reservation_id);;
        mret true
  end.

Definition cancel_room (hotel_id : value) (reservation_id : string) : M bool :=
  hotels ← _load_hotels;
  found ← lift (py_lookup hotels hotel_id);
  match found with
  | None =>
      print (NotFound Hotels hotel_id);;
      mret false
  | Some (key, hotel) =>
      present ← lift (py_contains (reservations hotel) reservation_id);
      if (present : bool) then
        occupants ← lift (py_remove (reservations hotel) reservation_id);
        let hotel := set_reservations occupants hotel in
        a ← lift (py_add (available_rooms hotel) 1);
        available ← lift (py_min (total_rooms hotel) a);
        let hotel := set_available_rooms available hotel in
        _save_hotels (<[key := hotel]> hotels);;
        print (RoomCancelled reservation_id hotel_id);;
        mret true
      else
        print (ReservationNotOnRecord reservation_id hotel_id);;
        mret false
  end.

End Hotel.

(** ** reservation.py *)

Module Reservation.

Record t : Type := mk {
  reservation_id : value;
  customer_id : value;
  hotel_id : value;
  check_in : value;
  check_out : value;
}.

Definition to_dict (self : t) : value :=
  VDict (<["reservation_id" := reservation_id self]>
        (<["customer_id" := customer_id self]>
        (<["hotel_id" := hotel_id self]>
        (<["check_in" := check_in self]>
        (<["check_out" := check_out self]> ∅))))).

Definition from_dict (data : value) : outcome t :=
  match subscript data "reservation_id" with Raise e => Raise e | Return reservation_id =>
  match subscript data "customer_id" with Raise e => Raise e | Return customer_id =>
  match subscript data "hotel_id" with Raise e => Raise e | Return hotel_id =>
  match subscript data "check_in" with Raise e => Raise e | Return check_in =>
  match subscript data "check_out" with Raise e => Raise e | Return check_out =>
  Return (mk reservation_id customer_id hotel_id check_in check_out)
  end end end end end.

Definition _load_reservations : M (gmap string t) :=
  load_records Reservations from_dict.

Definition _save_reservations (reservations : gmap string t) : M unit :=
  save_records Reservations to_dict reservations.

Definition create_reservation
    (reservation_id customer_id hotel_id check_in check_out : string) : M (option t) :=
  reservations ← _load_reservations;
  match reservations !! reservation_id with
  | Some _ =>
      print (AlreadyExists Reservations reservation_id);;
      mret None
  | None =>
      customers ← Customer._load_customers;
      match customers !! customer_id with
      | None =>
          print (CustomerNotFound customer_id);;
          mret None
      | Some _ =>
          success ← Hotel.reserve_room hotel_id reservation_id;
          if (success : bool) then
            let reservation :=
              mk (VStr reservation_id) (VStr customer_id) (VStr hotel_id)
                 (VStr check_in) (VStr check_out) in
            _save_reservations (<[reservation_id := reservation]> reservations);;
            print (Created Reservations reservation_id);;
            mret (Some reservation)
          else mret None
      end
  end.

Definition cancel_reservation (reservation_id : string) : M bool :=
  reservations ← _load_reservations;
  match reservations !! reservation_id with
  | None =>
      print (NotFound Reservations (VStr reservation_id));;
      mret false
  | Some reservation =>
      Hotel.cancel_room (hotel_id reservation) reservation_id;;
      _save_reservations (delete reservation_id reservations);;
      print (Cancelled reservation_id);;
      mret true
  end.

End Reservation.

(** ** Vocabulary of the statements *)

Definition hotel_store : world → option (gmap string Hotel.t) :=
  stored Hotels Hotel.from_dict.
Definition customer_store : world → option (gmap string Customer.t) :=
  stored Customers Customer.from_dict.
Definition reservation_store : world → option (gmap string Reservation.t) :=
  stored Reservations Reservation.from_dict.

(** No file differs between [w] and [w']. *)
Definition unchanged (w w' : world) : Prop :=
  hotels_file w' = hotels_file w ∧
  customers_file w' = customers_file w ∧
  reservations_file w' = reservations_file w.

(** [e] is the last message printed between [w] and [w']. *)
Definition printed (e : event) (w w' : world) : Prop :=
  ∃ es, stdout w' = stdout w ++ es ++ [e].



(** [0 <= available_rooms <= total_rooms]. *)
Definition within_bounds (h : Hotel.t) : Prop :=
  ∃ t a, as_int (Hotel.total_rooms h) = Some t ∧
         as_int (Hotel.available_rooms h) = Some a ∧
         (0 ≤ a ≤ t)%Z.

(** What [reserve_room] does to the hotel it found: [None] when the hotel
    is full, the updated hotel otherwise. *)
Definition reserve_effect (reservation_id : string) (h : Hotel.t) : outcome (option Hotel.t) :=
  match py_le (Hotel.available_rooms h) 0 with
  | Raise e => Raise e
  | Return true => Return None
  | Return false =>
      match py_add (Hotel.available_rooms h) (-1) with
      | Raise e => Raise e
      | Return a =>
          match py_append (Hotel.reservations h) (VStr reservation_id) with
          | Raise e => Raise e
          | Return l =>
              Return (Some (Hotel.set_reservations l (Hotel.set_available_rooms (VInt a) h)))
          end
      end
  end.

(** What [cancel_room] does to the hotel it found: [None] when the
    reservation is not on its list. *)
Definition cancel_effect (reservation_id : string) (h : Hotel.t) : outcome (option Hotel.t) :=
  match py_contains (Hotel.reservations h) reservation_id with
  | Raise e => Raise e
  | Return false => Return None
  | Return true =>
      match py_remove (Hotel.reservations h) reservation_id with
      | Raise e => Raise e
      | Return l =>
          match py_add (Hotel.available_rooms h) 1 with
          | Raise e => Raise e
          | Return a =>
              match py_min (Hotel.total_rooms h) a with
              | Raise e => Raise e
              | Return v =>
                  Return (Some (Hotel.set_available_rooms v (Hotel.set_reservations l h)))
              end
          end
      end
  end.

(** The file [_save_hotels] writes. *)
Definition hotels_json (hotels : gmap string Hotel.t) : file :=
  Parsed (VDict (Hotel.to_dict <$> hotels)).
Definition reservations_json (reservations : gmap string Reservation.t) : file :=
  Parsed (VDict (Reservation.to_dict <$> reservations)).

(** A mapping holds one record [bad] on which [from_dict] raises, at key
    [k], among the records [good] on which it succeeds: the load returns the
    records of [good], one for one, and prints one message. *)
Definition skips_malformed {E : Type} (s : store) (from_dict : value → outcome E)
    (load : M (gmap string E)) : Prop :=
  ∀ (good : gmap string value) k bad err w,
    good !! k = None →
    (∀ k' v, good !! k' = Some v → ∃ x, from_dict v = Return x) →
    from_dict bad = Raise err →
    file_of s w = Parsed (VDict (<[k := bad]> good)) →
    ∃ m, load w = (Return m, write_stdout [RecordError s k err] w) ∧
         size m = size good ∧
         m !! k = None ∧
         ∀ k' v, good !! k' = Some v →
                 ∃ x, from_dict v = Return x ∧ m !! k' = Some x.

(** The process state after the call [m]. *)
Definition after {A} (m : M A) (w : world) : world := (m w).2.


(** A committed mutation of the hotel store, with room totals that are not
    negative. *)
Inductive hotel_mutation (w w' : world) : Prop :=
| mutation_create hid name loc t h :
    (0 ≤ t)%Z →
    Hotel.create_hotel hid name loc t w = (Return (Some h), w') →
    hotel_mutation w w'
| mutation_modify hid name loc total :
    (∀ n, total = Some n → (0 ≤ n)%Z) →
    Hotel.modify_hotel hid name loc total w = (Return true, w') →
    hotel_mutation w w'
| mutation_reserve hid rid :
    Hotel.reserve_room hid rid w = (Return true, w') → hotel_mutation w w'
| mutation_cancel hid rid :
    Hotel.cancel_room hid rid w = (Return true, w') → hotel_mutation w w'.

(** Number of times the string [s] is on the list [l]. *)
Definition occurrences (s : string) (l : list value) : nat :=
  length (List.filter (is_str s) l).

(** ** The reservation coordinator as a transition system *)








(** ** Scenarios *)

Definition fresh_world : world := World NoFile NoFile NoFile [].

(** [Hotel.display_hotel(hotel_id).available_rooms], without the printing. *)
Definition available_in (hotel_id : string) (w : world) : option value :=
  match hotel_store w with
  | Some hotels => Hotel.available_rooms <$> hotels !! hotel_id
  | None => None
  end.

(** The fixture of the reservation tests: hotel H1 with 5 rooms, customer C1. *)
Definition setup_world : world :=
  after (Customer.create_customer "C1" "Alice" "alice@mail.com" "555-1234")
    (after (Hotel.create_hotel "H1" "Grand Inn" "NYC" 5) fresh_world).


(** A hotel of one room, then taken (test_no_rooms_available). *)
Definition tiny_world : world :=
  after (Customer.create_customer "C1" "Alice" "alice@mail.com" "555-1234")
    (after (Hotel.create_hotel "H_TINY" "Tiny" "LA" 1) fresh_world).

Definition full_world : world :=
  after (Reservation.create_reservation "R1" "C1" "H_TINY" "2024-01-01" "2024-01-05")
    tiny_world.


(** A hotel file with one valid record and the record of
    test_load_hotels_invalid_record. *)
Definition valid_hotel_record : value :=
  Hotel.to_dict (Hotel.init (VStr "H2") (VStr "Grand Inn") (VStr "NYC") (VInt 50)).

Definition malformed_hotel_record : value :=
  VDict {["bad_key" := VStr "bad_value"]}.

Definition malformed_world : world :=
  World (Parsed (VDict (<["H1" := malformed_hotel_record]> {["H2" := valid_hotel_record]})))
        NoFile NoFile [].

(** A hotel file written by hand: one room in total, three available. *)
Definition oversized_world : world :=
  World (hotels_json {["H1" := Hotel.mk (VStr "H1") (VStr "Grand Inn") (VStr "NYC")
                                        (VInt 1) (VInt 3) (VList [])]})
        NoFile NoFile [].

(** ** Vocabulary of the further properties *)





(** A hotel file whose only record has text where the counts should be, and
    no occupant list but [null]. *)
Definition ill_typed_hotel : Hotel.t :=
  Hotel.mk (VStr "H1") (VStr "Grand Inn") (VStr "NYC") (VStr "five") (VStr "five") VNone.

Definition ill_typed_world : world :=
  World (hotels_json {["H1" := ill_typed_hotel]})
        NoFile
        (reservations_json {["R1" := Reservation.mk (VStr "R1") (VStr "C1") (VStr "H1")
                                       (VStr "2024-01-01") (VStr "2024-01-05")]})
        [].

(** A hotel file that parses, but not to a mapping. *)
Definition list_world : world := World (Parsed (VList [])) NoFile NoFile [].



(** * Facts *)

(** ** The process state *)

Lemma write_stdout_app a b w :
  write_stdout b (write_stdout a w) = write_stdout (a ++ b) w.
Proof. unfold write_stdout; simpl. by rewrite app_assoc. Qed.

Lemma write_stdout_nil w : write_stdout [] w = w.
Proof. destruct w; unfold write_stdout; simpl. by rewrite app_nil_r. Qed.

Lemma file_of_write_stdout s es w : file_of s (write_stdout es w) = file_of s w.
Proof. by destruct s. Qed.

Lemma file_of_write_file s f w : file_of s (write_file s f w) = f.
Proof. by destruct s. Qed.

Lemma file_of_write_file_ne s s' f w :
  s ≠ s' → file_of s' (write_file s f w) = file_of s' w.
Proof. by destruct s, s'. Qed.

Lemma unchanged_write_stdout es w : unchanged w (write_stdout es w).
Proof. by repeat split. Qed.

Lemma printed_write_stdout es e w : printed e w (write_stdout (es ++ [e]) w).
Proof. by exists es. Qed.

(** ** Loading and saving a store *)

Section record_store_facts.
Context {E : Type} (s : store) (from_dict : value → outcome E) (to_dict : E → value).
Hypothesis from_dict_caught : ∀ v e, from_dict v = Raise e → caught e = true.

Lemma load_loop_run items records w :
  load_loop s from_dict items records w =
  (Return (loaded from_dict items records),
   write_stdout (record_errors s from_dict items) w).
Proof.
  revert records w. induction items as [|[k v] items IH]; intros records w.
  - simpl. by rewrite write_stdout_nil.
  - simpl. destruct (from_dict v) as [x|e] eqn:Hv; simpl.
    + apply IH.
    + rewrite (from_dict_caught v e Hv).
      unfold mbind, M_bind, print. rewrite IH. by rewrite write_stdout_app.
Qed.

Lemma loaded_lookup items (records : gmap string E) k x :
  NoDup (items.*1) →
  loaded from_dict items records !! k = Some x ↔
  (∃ v, (k, v) ∈ items ∧ from_dict v = Return x) ∨
  ((∀ v, (k, v) ∈ items → returned (from_dict v) = None) ∧ records !! k = Some x).
Proof.
  revert records. induction items as [|[k0 v0] items IH]; intros records Hnd.
  - simpl. split.
    + intros Hr. right. split; [|done]. by intros v Hin%not_elem_of_nil.
    + intros [(v & Hin & _)|[_ Hr]]; [by apply not_elem_of_nil in Hin|done].
  - simpl in Hnd. apply NoDup_cons in Hnd as [Hk0 Hnd]. simpl.
    rewrite (IH _ Hnd). clear IH.
    assert (∀ v, (k0, v) ∈ items → False) as Hfresh.
    { intros v Hin. apply Hk0. apply list_elem_of_fmap. by exists (k0, v). }
    split.
    + intros [(v & Hin & Hv)|[Hnone Hr]].
      * left. exists v. split; [by apply elem_of_cons; right|done].
      * destruct (decide (k0 = k)) as [->|Hne].
        -- destruct (from_dict v0) as [x0|e0] eqn:Hv0.
           ++ rewrite lookup_insert_eq in Hr. injection Hr as <-.
              left. exists v0. split; [by apply elem_of_cons; left|done].
           ++ right. split; [|done].
              intros v [[= ->]|Hin]%elem_of_cons; [by rewrite Hv0|by apply Hnone].
        -- right. split.
           ++ intros v [[= ? ?]|Hin]%elem_of_cons; [done|by apply Hnone].
           ++ destruct (from_dict v0); [by rewrite lookup_insert_ne in Hr|done].
    + intros [(v & [[= -> ->]|Hin]%elem_of_cons & Hv)|[Hnone Hr]].
      * right. rewrite Hv. split; [|apply lookup_insert_eq].
        intros v Hin. by destruct (Hfresh v).
      * left. eauto.
      * right. split; [intros v Hin; apply Hnone, elem_of_cons; by right|].
        destruct (from_dict v0) as [x0|e0] eqn:Hv0; [|done].
        rewrite lookup_insert_ne; [done|]. intros ->.
        specialize (Hnone v0 ltac:(by apply elem_of_cons; left)).
        by rewrite Hv0 in Hnone.
Qed.

Lemma loaded_map_to_list (data : gmap string value) :
  loaded from_dict (map_to_list data) ∅ = omap (λ v, returned (from_dict v)) data.
Proof.
  apply map_eq; intros k. apply option_eq; intros x.
  rewrite loaded_lookup by apply NoDup_fst_map_to_list.
  rewrite lookup_omap_Some. split.
  - intros [(v & Hin & Hv)|[_ Hemp]]; [|by rewrite lookup_empty in Hemp].
    exists v. apply elem_of_map_to_list in Hin. by rewrite Hv.
  - intros (v & Hret & Hv). left. exists v.
    split; [by apply elem_of_map_to_list|].
    by destruct (from_dict v); simplify_eq/=.
Qed.

(** A file that parses as a mapping loads as the records on which
    [from_dict] succeeds. *)
Lemma load_records_parsed data w :
  file_of s w = Parsed (VDict data) →
  load_records s from_dict w =
  (Return (omap (λ v, returned (from_dict v)) data),
   write_stdout (record_errors s from_dict (map_to_list data)) w).
Proof.
  intros Hf. unfold load_records. rewrite Hf.
  by rewrite load_loop_run, loaded_map_to_list.
Qed.

Lemma load_records_run w :
  ∃ es, load_records s from_dict w =
        (match stored s from_dict w with
         | Some m => Return m
         | None => Raise AttributeError
         end, write_stdout es w).
Proof.
  unfold stored.
  destruct (file_of s w) as [| |[]] eqn:Hf;
    try (rewrite (load_records_parsed _ w Hf); by eexists);
    unfold load_records; rewrite Hf; simpl;
    first [by eexists | by exists []; rewrite write_stdout_nil].
Qed.

Lemma stored_frame w w' :
  file_of s w = file_of s w' → stored s from_dict w = stored s from_dict w'.
Proof.
  intros Hf. unfold stored.
  destruct (file_of s w') as [| |[]] eqn:Hf';
    try (by rewrite (load_records_parsed _ w Hf), (load_records_parsed _ w' Hf'));
    unfold load_records; by rewrite Hf, Hf'.
Qed.

Lemma stored_write_stdout es w :
  stored s from_dict (write_stdout es w) = stored s from_dict w.
Proof. apply stored_frame, file_of_write_stdout. Qed.

(** What was saved is what the next load returns, as soon as [from_dict]
    undoes [to_dict]. *)
Lemma stored_saved (m : gmap string E) w :
  (∀ x, from_dict (to_dict x) = Return x) →
  stored s from_dict (write_file s (Parsed (VDict (to_dict <$> m))) w) = Some m.
Proof.
  intros Hrt. unfold stored.
  rewrite (load_records_parsed (to_dict <$> m)) by apply file_of_write_file.
  simpl. f_equal. apply map_eq; intros k.
  rewrite lookup_omap, lookup_fmap.
  destruct (m !! k); simpl; [by rewrite Hrt | done].
Qed.
End record_store_facts.

(** ** Serialisation of the three entities *)

Lemma customer_from_to_dict c : Customer.from_dict (Customer.to_dict c) = Return c.
Proof. by destruct c. Qed.

Lemma hotel_from_to_dict h : Hotel.from_dict (Hotel.to_dict h) = Return h.
Proof. by destruct h. Qed.

Lemma reservation_from_to_dict r : Reservation.from_dict (Reservation.to_dict r) = Return r.
Proof. by destruct r. Qed.

(** [from_dict] raises nothing but what the loaders catch. *)
Lemma subscript_caught data k e : subscript data k = Raise e → caught e = true.
Proof.
  unfold subscript. destruct data as [| | | | |d]; try by intros [= <-].
  destruct (d !! k); [done|by intros [= <-]].
Qed.

Lemma customer_from_dict_caught v e : Customer.from_dict v = Raise e → caught e = true.
Proof.
  unfold Customer.from_dict.
  repeat match goal with
         | |- context [subscript v ?k] =>
             let H := fresh in
             destruct (subscript v k) eqn:H;
             [|intros [= <-]; by apply subscript_caught in H]
         end.
  done.
Qed.

Lemma hotel_from_dict_caught v e : Hotel.from_dict v = Raise e → caught e = true.
Proof.
  unfold Hotel.from_dict.
  repeat match goal with
         | |- context [subscript v ?k] =>
             let H := fresh in
             destruct (subscript v k) eqn:H;
             [|intros [= <-]; by apply subscript_caught in H]
         end.
  destruct v; try done.
Qed.

Lemma reservation_from_dict_caught v e :
  Reservation.from_dict v = Raise e → caught e = true.
Proof.
  unfold Reservation.from_dict.
  repeat match goal with
         | |- context [subscript v ?k] =>
             let H := fresh in
             destruct (subscript v k) eqn:H;
             [|intros [= <-]; by apply subscript_caught in H]
         end.
  done.
Qed.

(** ** The three stores *)

Lemma hotel_store_saved H w :
  hotel_store (write_file Hotels (hotels_json H) w) = Some H.
Proof. apply stored_saved; [apply hotel_from_dict_caught|apply hotel_from_to_dict]. Qed.



Lemma hotel_store_of_file H w : hotels_file w = hotels_json H → hotel_store w = Some H.
Proof.
  intros Hf. unfold hotel_store.
  rewrite (stored_frame Hotels Hotel.from_dict hotel_from_dict_caught w
             (write_file Hotels (hotels_json H) w)).
  - apply hotel_store_saved.
  - by rewrite file_of_write_file.
Qed.


Lemma hotel_store_write_stdout es w : hotel_store (write_stdout es w) = hotel_store w.
Proof. apply stored_write_stdout, hotel_from_dict_caught. Qed.

Lemma reservation_store_write_stdout es w :
  reservation_store (write_stdout es w) = reservation_store w.
Proof. apply stored_write_stdout, reservation_from_dict_caught. Qed.

Lemma customer_store_write_stdout es w :
  customer_store (write_stdout es w) = customer_store w.
Proof. apply stored_write_stdout, customer_from_dict_caught. Qed.

Lemma hotel_store_after_save es es' H w :
  hotel_store (write_stdout es' (write_file Hotels (hotels_json H) (write_stdout es w)))
  = Some H.
Proof.
  unfold hotel_store. rewrite (stored_write_stdout _ _ hotel_from_dict_caught).
  apply hotel_store_saved.
Qed.


Lemma reservation_store_unchanged w w' :
  unchanged w w' → reservation_store w' = reservation_store w.
Proof.
  intros (_ & _ & Hr). by apply stored_frame; [apply reservation_from_dict_caught|].
Qed.

(** ** Loading a file with a malformed record *)

Section malformed_record.
Context {E : Type} (s : store) (from_dict : value → outcome E).
Hypothesis from_dict_caught : ∀ v e, from_dict v = Raise e → caught e = true.

Lemma record_errors_valid (good : gmap string value) :
  (∀ k' v, good !! k' = Some v → ∃ x, from_dict v = Return x) →
  record_errors s from_dict (map_to_list good) = [].
Proof.
  intros Hgood. unfold record_errors.
  assert (Forall (λ kv, ∃ x, from_dict kv.2 = Return x) (map_to_list good)) as Hall.
  { apply Forall_forall. intros [k' v] Hin.
    apply elem_of_map_to_list in Hin. simpl. eauto. }
  induction Hall as [|kv l [x Hx] _ IH]; [done|].
  simpl. by rewrite Hx.
Qed.

Lemma record_errors_insert (good : gmap string value) k bad err :
  good !! k = None →
  (∀ k' v, good !! k' = Some v → ∃ x, from_dict v = Return x) →
  from_dict bad = Raise err →
  record_errors s from_dict (map_to_list (<[k := bad]> good)) = [RecordError s k err].
Proof.
  intros Hk Hgood Hbad.
  apply Permutation_singleton_r. unfold record_errors.
  rewrite (map_to_list_insert good k bad Hk). simpl. rewrite Hbad. simpl.
  change (RecordError s k err :: record_errors s from_dict (map_to_list good)
          ≡ₚ [RecordError s k err]).
  by rewrite (record_errors_valid good Hgood).
Qed.

Lemma load_records_skips_malformed :
  skips_malformed s from_dict (load_records s from_dict).
Proof.
  intros good k bad err w Hk Hgood Hbad Hfile.
  set (m := omap (λ v, returned (from_dict v)) good).
  assert (∀ k', is_Some (m !! k') ↔ is_Some (good !! k')) as Hdom.
  { intros k'. unfold m. rewrite lookup_omap.
    destruct (good !! k') as [v|] eqn:Hv; simpl.
    - destruct (Hgood _ _ Hv) as [x ->]. simpl. split; eauto.
    - split; intros [? ?]; done. }
  exists m. split; [|split; [|split]].
  - rewrite (load_records_parsed s from_dict from_dict_caught _ w Hfile).
    rewrite (record_errors_insert good k bad err Hk Hgood Hbad).
    do 2 f_equal. unfold m.
    rewrite (omap_insert_None _ good k bad) by (by rewrite Hbad).
    apply delete_id. by rewrite lookup_omap, Hk.
  - rewrite <-!size_dom. f_equal. apply set_eq. intros k'.
    rewrite !elem_of_dom. apply Hdom.
  - unfold m. by rewrite lookup_omap, Hk.
  - intros k' v Hv. destruct (Hgood _ _ Hv) as [x Hx]. exists x. split; [done|].
    unfold m. by rewrite lookup_omap, Hv; simpl; rewrite Hx.
Qed.
End malformed_record.

(** ** One call on the hotel store

    Each lemma runs one static method: [es] are the diagnostics of its
    load, and the result is read off the store the load returns. *)

Ltac run_load s fd caught w es :=
  let Hl := fresh "Hl" in
  destruct (load_records_run s fd caught w) as [es Hl];
  unfold mbind, M_bind, mret, M_ret, lift, print;
  rewrite Hl; clear Hl.

Lemma create_hotel_run hid name loc t w :
  ∃ es, Hotel.create_hotel hid name loc t w =
    match hotel_store w with
    | None => (Raise AttributeError, write_stdout es w)
    | Some H =>
        match H !! hid with
        | Some _ => (Return None, write_stdout (es ++ [AlreadyExists Hotels hid]) w)
        | None =>
            let h := Hotel.init (VStr hid) (VStr name) (VStr loc) (VInt t) in
            (Return (Some h),
             write_stdout [Created Hotels name]
               (write_file Hotels (hotels_json (<[hid := h]> H)) (write_stdout es w)))
        end
    end.
Proof.
  unfold Hotel.create_hotel, Hotel._load_hotels, Hotel._save_hotels, hotel_store.
  run_load Hotels Hotel.from_dict hotel_from_dict_caught w es. exists es.
  destruct (stored _ _ w) as [H|]; [|done].
  destruct (H !! hid); simpl; [by rewrite write_stdout_app | done].
Qed.


Lemma modify_hotel_run hid name loc total w :
  ∃ es, Hotel.modify_hotel hid name loc total w =
    match hotel_store w with
    | None => (Raise AttributeError, write_stdout es w)
    | Some H =>
        match H !! hid with
        | None => (Return false, write_stdout (es ++ [NotFound Hotels (VStr hid)]) w)
        | Some h =>
            match Hotel.modified name loc total h with
            | Raise e => (Raise e, write_stdout es w)
            | Return h' =>
                (Return true,
                 write_stdout [Modified Hotels hid]
                   (write_file Hotels (hotels_json (<[hid := h']> H)) (write_stdout es w)))
            end
        end
    end.
Proof.
  unfold Hotel.modify_hotel, Hotel._load_hotels, Hotel._save_hotels, hotel_store.
  run_load Hotels Hotel.from_dict hotel_from_dict_caught w es. exists es.
  destruct (stored _ _ w) as [H|]; [|done].
  destruct (H !! hid) as [h|]; simpl; [|by rewrite write_stdout_app].
  by destruct (Hotel.modified name loc total h).
Qed.

Lemma reserve_room_run hid rid w :
  ∃ es, Hotel.reserve_room hid rid w =
    match hotel_store w with
    | None => (Raise AttributeError, write_stdout es w)
    | Some H =>
        match H !! hid with
        | None => (Return false, write_stdout (es ++ [NotFound Hotels (VStr hid)]) w)
        | Some h =>
            match reserve_effect rid h with
            | Raise e => (Raise e, write_stdout es w)
            | Return None => (Return false, write_stdout (es ++ [NoAvailability hid]) w)
            | Return (Some h') =>
                (Return true,
                 write_stdout [RoomReserved hid rid]
                   (write_file Hotels (hotels_json (<[hid := h']> H)) (write_stdout es w)))
            end
        end
    end.
Proof.
  unfold Hotel.reserve_room, Hotel._load_hotels, Hotel._save_hotels, hotel_store.
  run_load Hotels Hotel.from_dict hotel_from_dict_caught w es. exists es.
  destruct (stored _ _ w) as [H|]; [|done].
  destruct (H !! hid) as [h|]; simpl; [|by rewrite write_stdout_app].
  unfold reserve_effect.
  destruct (py_le _ 0) as [[]|]; simpl; [by rewrite write_stdout_app| |done].
  destruct (py_add _ _); simpl; [|done].
  by destruct (py_append _ _).
Qed.

Lemma cancel_room_run hid rid w :
  ∃ es, Hotel.cancel_room hid rid w =
    match hotel_store w with
    | None => (Raise AttributeError, write_stdout es w)
    | Some H =>
        match py_lookup H hid with
        | Raise e => (Raise e, write_stdout es w)
        | Return None => (Return false, write_stdout (es ++ [NotFound Hotels hid]) w)
        | Return (Some (key, h)) =>
            match cancel_effect rid h with
            | Raise e => (Raise e, write_stdout es w)
            | Return None =>
                (Return false, write_stdout (es ++ [ReservationNotOnRecord rid hid]) w)
            | Return (Some h') =>
                (Return true,
                 write_stdout [RoomCancelled rid hid]
                   (write_file Hotels (hotels_json (<[key := h']> H)) (write_stdout es w)))
            end
        end
    end.
Proof.
  unfold Hotel.cancel_room, Hotel._load_hotels, Hotel._save_hotels, hotel_store.
  run_load Hotels Hotel.from_dict hotel_from_dict_caught w es. exists es.
  destruct (stored _ _ w) as [H|]; [|done].
  destruct (py_lookup H hid) as [[[key h]|]|]; simpl;
    [|by rewrite write_stdout_app|done].
  unfold cancel_effect.
  destruct (py_contains _ _) as [[]|]; simpl; [| by rewrite write_stdout_app | done].
  destruct (py_remove _ _); simpl; [|done].
  destruct (py_add _ _); simpl; [|done].
  by destruct (py_min _ _).
Qed.

(** ** One call of the reservation coordinator *)

Lemma create_reservation_run rid cid hid ci co w :
  ∃ es, Reservation.create_reservation rid cid hid ci co w =
    match reservation_store w with
    | None => (Raise AttributeError, write_stdout es w)
    | Some R =>
        match R !! rid with
        | Some _ => (Return None, write_stdout (es ++ [AlreadyExists Reservations rid]) w)
        | None =>
            match customer_store w with
            | None => (Raise AttributeError, write_stdout es w)
            | Some C =>
                match C !! cid with
                | None => (Return None, write_stdout (es ++ [CustomerNotFound cid]) w)
                | Some _ =>
                    match Hotel.reserve_room hid rid (write_stdout es w) with
                    | (Raise e, w1) => (Raise e, w1)
                    | (Return false, w1) => (Return None, w1)
                    | (Return true, w1) =>
                        let r := Reservation.mk (VStr rid) (VStr cid) (VStr hid)
                                                (VStr ci) (VStr co) in
                        (Return (Some r),
                         write_stdout [Created Reservations rid]
                           (write_file Reservations (reservations_json (<[rid := r]> R)) w1))
                    end
                end
            end
        end
    end.
Proof.
  unfold Reservation.create_reservation, Reservation._load_reservations,
    Reservation._save_reservations, Customer._load_customers,
    reservation_store, customer_store.
  run_load Reservations Reservation.from_dict reservation_from_dict_caught w es.
  destruct (stored Reservations _ w) as [R|]; [|by exists es].
  destruct (R !! rid); simpl; [exists es; by rewrite write_stdout_app|].
  destruct (load_records_run Customers Customer.from_dict customer_from_dict_caught
              (write_stdout es w))
    as [es' ->].
  rewrite (stored_write_stdout _ _ customer_from_dict_caught), write_stdout_app.
  exists (es ++ es').
  destruct (stored Customers _ w) as [C|]; [|done].
  destruct (C !! cid); simpl; [|by rewrite write_stdout_app].
  by destruct (Hotel.reserve_room _ _ _) as [[[]|] w1].
Qed.

Lemma cancel_reservation_run rid w :
  ∃ es, Reservation.cancel_reservation rid w =
    match reservation_store w with
    | None => (Raise AttributeError, write_stdout es w)
    | Some R =>
        match R !! rid with
        | None => (Return false, write_stdout (es ++ [NotFound Reservations (VStr rid)]) w)
        | Some r =>
            match Hotel.cancel_room (Reservation.hotel_id r) rid (write_stdout es w) with
            | (Raise e, w1) => (Raise e, w1)
            | (Return _, w1) =>
                (Return true,
                 write_stdout [Cancelled rid]
                   (write_file Reservations (reservations_json (delete rid R)) w1))
            end
        end
    end.
Proof.
  unfold Reservation.cancel_reservation, Reservation._load_reservations,
    Reservation._save_reservations, reservation_store.
  run_load Reservations Reservation.from_dict reservation_from_dict_caught w es. exists es.
  destruct (stored Reservations _ w) as [R|]; [|done].
  destruct (R !! rid) as [r|]; simpl; [|by rewrite write_stdout_app].
  by destruct (Hotel.cancel_room _ _ _) as [[|] w1].
Qed.

(** ** The effect of a call on its hotel *)

Lemma py_max0_max n : py_max0 n = VInt (Z.max 0 n).
Proof. unfold py_max0. f_equal. destruct (Z.ltb_spec 0 n); lia. Qed.

Lemma modified_total name loc n h t a :
  as_int (Hotel.total_rooms h) = Some t →
  as_int (Hotel.available_rooms h) = Some a →
  ∃ h', Hotel.modified name loc (Some n) h = Return h' ∧
        Hotel.total_rooms h' = VInt n ∧
        Hotel.available_rooms h' = VInt (Z.max 0 (a + (n - t))) ∧
        Hotel.reservations h' = Hotel.reservations h ∧
        Hotel.hotel_id h' = Hotel.hotel_id h.
Proof.
  intros Ht Ha. unfold Hotel.modified.
  destruct (truthy name), (truthy loc); simpl;
    unfold py_rsub, py_add; simpl; rewrite Ht; simpl; rewrite Ha; simpl;
    eexists; (split; [reflexivity|]); simpl; by rewrite py_max0_max.
Qed.

Lemma reserve_effect_Some rid h h' :
  reserve_effect rid h = Return (Some h') ↔
  ∃ a l, as_int (Hotel.available_rooms h) = Some a ∧ (0 < a)%Z ∧
         Hotel.reservations h = VList l ∧
         h' = Hotel.set_reservations (VList (l ++ [VStr rid]))
                (Hotel.set_available_rooms (VInt (a - 1)) h).
Proof.
  unfold reserve_effect, py_le, py_add, py_append. split.
  - destruct (as_int (Hotel.available_rooms h)) as [a|]; [|done].
    destruct (Z.leb_spec a 0); [done|].
    destruct (Hotel.reservations h) as [| | | |l|] eqn:Hl; try done.
    intros [= <-]. by exists a, l.
  - intros (a & l & -> & Ha & Hl & ->).
    destruct (Z.leb_spec a 0); [lia|].
    simpl. by rewrite Hl.
Qed.

Lemma cancel_effect_Some rid h h' :
  cancel_effect rid h = Return (Some h') ↔
  ∃ a t l, as_int (Hotel.available_rooms h) = Some a ∧
           as_int (Hotel.total_rooms h) = Some t ∧
           Hotel.reservations h = VList l ∧
           existsb (is_str rid) l = true ∧
           h' = Hotel.set_available_rooms
                  (if (a + 1 <? t)%Z then VInt (a + 1) else Hotel.total_rooms h)
                  (Hotel.set_reservations (VList (remove_first rid l)) h).
Proof.
  unfold cancel_effect, py_contains, py_remove, py_add, py_min. split.
  - destruct (Hotel.reservations h) as [| | |s|l|d] eqn:Hl; try done.
    + by destruct (occurs_in rid s).
    + destruct (existsb (is_str rid) l) eqn:Hin; [|done]. simpl.
      destruct (as_int (Hotel.available_rooms h)) as [a|]; [|done].
      destruct (as_int (Hotel.total_rooms h)) as [t|]; [|done].
      intros [= <-]. by exists a, t, l.
    + by destruct (bool_decide _).
  - intros (a & t & l & Ha & Ht & -> & -> & ->). simpl. by rewrite Ha, Ht.
Qed.


Lemma occurrences_app s l1 l2 :
  occurrences s (l1 ++ l2) = (occurrences s l1 + occurrences s l2)%nat.
Proof. unfold occurrences. by rewrite List.filter_app, length_app. Qed.

Lemma occurrences_remove_first s l :
  existsb (is_str s) l = true →
  S (occurrences s (remove_first s l)) = occurrences s l.
Proof.
  unfold occurrences. induction l as [|x l IH]; simpl; [done|].
  destruct (is_str s x) eqn:Hx; simpl; [done|]. rewrite Hx. apply IH.
Qed.



Lemma bounds_reserve rid h h' :
  reserve_effect rid h = Return (Some h') → within_bounds h → within_bounds h'.
Proof.
  intros (a & l & Ha & Hpos & Hl & ->)%reserve_effect_Some (t & a' & Ht & Ha' & Hb).
  simplify_eq. exists t, (a - 1)%Z. simpl. repeat split; [done|lia..].
Qed.

Lemma bounds_cancel rid h h' :
  cancel_effect rid h = Return (Some h') → within_bounds h → within_bounds h'.
Proof.
  intros (a & t & l & Ha & Ht & Hl & Hin & ->)%cancel_effect_Some
         (t' & a' & Ht' & Ha' & Hb).
  simplify_eq. exists t, (Z.min t (a + 1)). simpl. repeat split; [done| |lia..].
  destruct (Z.ltb_spec (a + 1) t); simpl; [f_equal; lia|].
  rewrite Ht. f_equal. lia.
Qed.

Lemma bounds_modified name loc total h h' :
  (∀ n, total = Some n → (0 ≤ n)%Z) →
  Hotel.modified name loc total h = Return h' → within_bounds h → within_bounds h'.
Proof.
  intros Hn Hm (t & a & Ht & Ha & Hb). destruct total as [n|].
  - destruct (modified_total name loc n h t a Ht Ha) as (h2 & Hm2 & Ht2 & Ha2 & _).
    rewrite Hm in Hm2. simplify_eq. specialize (Hn n eq_refl).
    exists n, (Z.max 0 (a + (n - t))). rewrite Ht2, Ha2. simpl.
    repeat split; lia.
  - unfold Hotel.modified in Hm.
    destruct (truthy name), (truthy loc); simplify_eq; by exists t, a.
Qed.

(** ** Successful calls, read backwards and forwards *)

Lemma py_lookup_Some {A} (d : gmap string A) k key a :
  py_lookup d k = Return (Some (key, a)) ↔ k = VStr key ∧ d !! key = Some a.
Proof.
  destruct k as [| | |s| |]; simpl; try (split; [done|by intros [? _]]).
  split.
  - destruct (d !! s) eqn:Hs; simpl; [|done]. by intros [= -> ->].
  - intros [[= ->] ->]. done.
Qed.

Lemma create_hotel_Some hid name loc t w h w' :
  Hotel.create_hotel hid name loc t w = (Return (Some h), w') →
  ∃ H, hotel_store w = Some H ∧ H !! hid = None ∧
       h = Hotel.init (VStr hid) (VStr name) (VStr loc) (VInt t) ∧
       hotel_store w' = Some (<[hid := h]> H) ∧
       customers_file w' = customers_file w ∧
       reservations_file w' = reservations_file w.
Proof.
  destruct (create_hotel_run hid name loc t w) as [es ->].
  destruct (hotel_store w) as [H|]; [|done].
  destruct (H !! hid) eqn:Hh; [done|]. intros [= <- <-].
  exists H. repeat split; try done. by apply hotel_store_of_file.
Qed.

Lemma modify_hotel_true hid name loc total w w' :
  Hotel.modify_hotel hid name loc total w = (Return true, w') →
  ∃ H h h', hotel_store w = Some H ∧ H !! hid = Some h ∧
            Hotel.modified name loc total h = Return h' ∧
            hotel_store w' = Some (<[hid := h']> H) ∧
            customers_file w' = customers_file w ∧
            reservations_file w' = reservations_file w.
Proof.
  destruct (modify_hotel_run hid name loc total w) as [es ->].
  destruct (hotel_store w) as [H|]; [|done].
  destruct (H !! hid) as [h|] eqn:Hh; [|done].
  destruct (Hotel.modified name loc total h) as [h'|] eqn:Hm; [|done].
  intros [= <-]. exists H, h, h'. repeat split; try done. by apply hotel_store_of_file.
Qed.

Lemma reserve_room_true hid rid w w' :
  Hotel.reserve_room hid rid w = (Return true, w') →
  ∃ H h h', hotel_store w = Some H ∧ H !! hid = Some h ∧
            reserve_effect rid h = Return (Some h') ∧
            hotel_store w' = Some (<[hid := h']> H) ∧
            customers_file w' = customers_file w ∧
            reservations_file w' = reservations_file w.
Proof.
  destruct (reserve_room_run hid rid w) as [es ->].
  destruct (hotel_store w) as [H|]; [|done].
  destruct (H !! hid) as [h|] eqn:Hh; [|done].
  destruct (reserve_effect rid h) as [[h'|]|] eqn:Hm; [|done..].
  intros [= <-]. exists H, h, h'. repeat split; try done. by apply hotel_store_of_file.
Qed.

Lemma cancel_room_true hid rid w w' :
  Hotel.cancel_room hid rid w = (Return true, w') →
  ∃ H key h h', hid = VStr key ∧ hotel_store w = Some H ∧ H !! key = Some h ∧
                cancel_effect rid h = Return (Some h') ∧
                hotel_store w' = Some (<[key := h']> H) ∧
                customers_file w' = customers_file w ∧
                reservations_file w' = reservations_file w.
Proof.
  destruct (cancel_room_run hid rid w) as [es ->].
  destruct (hotel_store w) as [H|]; [|done].
  destruct (py_lookup H hid) as [[[key h]|]|] eqn:Hk; [|done..].
  apply py_lookup_Some in Hk as [-> Hk].
  destruct (cancel_effect rid h) as [[h'|]|] eqn:Hm; [|done..].
  intros [= <-]. exists H, key, h, h'. repeat split; try done. by apply hotel_store_of_file.
Qed.

Lemma reserve_room_ok hid rid w H h h' :
  hotel_store w = Some H → H !! hid = Some h →
  reserve_effect rid h = Return (Some h') →
  ∃ w', Hotel.reserve_room hid rid w = (Return true, w') ∧
        hotel_store w' = Some (<[hid := h']> H).
Proof.
  intros HH Hh He. destruct (reserve_room_run hid rid w) as [es Hrun].
  rewrite HH, Hh, He in Hrun. eexists. split; [exact Hrun|].
  apply hotel_store_after_save.
Qed.

Lemma cancel_room_ok hid rid w H h h' :
  hotel_store w = Some H → H !! hid = Some h →
  cancel_effect rid h = Return (Some h') →
  ∃ w', Hotel.cancel_room (VStr hid) rid w = (Return true, w') ∧
        hotel_store w' = Some (<[hid := h']> H).
Proof.
  intros HH Hh He. destruct (cancel_room_run (VStr hid) rid w) as [es Hrun].
  rewrite HH in Hrun. simpl in Hrun. rewrite Hh in Hrun. simpl in Hrun.
  rewrite He in Hrun. eexists. split; [exact Hrun|].
  apply hotel_store_after_save.
Qed.

(** After the hotel at [k] is replaced, every hotel of the store is a hotel
    of the store before; a property the replacement keeps is kept. *)
Lemma insert_preserves {A} (P : A → Prop) (H : gmap string A) k h h' :
  H !! k = Some h → (P h → P h') →
  ∀ j x', <[k := h']> H !! j = Some x' → ∃ x, H !! j = Some x ∧ (P x → P x').
Proof.
  intros Hk HP j x'. destruct (decide (k = j)) as [<-|Hne].
  - rewrite lookup_insert_eq. intros [= <-]. eauto.
  - rewrite lookup_insert_ne by done. eauto.
Qed.

(** ** What a room call leaves alone *)

Lemma reserve_room_frame hid rid w :
  ∃ es, stdout (Hotel.reserve_room hid rid w).2 = stdout w ++ es ∧
        customers_file (Hotel.reserve_room hid rid w).2 = customers_file w ∧
        reservations_file (Hotel.reserve_room hid rid w).2 = reservations_file w.
Proof.
  destruct (reserve_room_run hid rid w) as [es ->].
  destruct (hotel_store w) as [H|]; [|by exists es].
  destruct (H !! hid) as [h|]; [|by eexists].
  destruct (reserve_effect rid h) as [[h'|]|]; [|by eexists..].
  exists (es ++ [RoomReserved hid rid]). simpl. by rewrite app_assoc.
Qed.


(** The result of [cancel_room] and the hotel file it leaves do not depend
    on what was printed before. *)
Lemma cancel_room_write_stdout hid rid es w :
  (Hotel.cancel_room hid rid (write_stdout es w)).1 = (Hotel.cancel_room hid rid w).1 ∧
  hotels_file (Hotel.cancel_room hid rid (write_stdout es w)).2
  = hotels_file (Hotel.cancel_room hid rid w).2.
Proof.
  destruct (cancel_room_run hid rid w) as [es1 ->].
  destruct (cancel_room_run hid rid (write_stdout es w)) as [es2 ->].
  rewrite hotel_store_write_stdout.
  destruct (hotel_store w) as [H|]; [|done].
  destruct (py_lookup H hid) as [[[key h]|]|]; [|done..].
  by destruct (cancel_effect rid h) as [[h'|]|].
Qed.

(** ** Occupant lists of reservation ids *)







(** ** The invariant of the coordinator *)







(** ** Tests of the repository, replayed on the model *)

(** test_modify_hotel_total_rooms *)
Example test_modify_hotel_total_rooms :
  let w := after (Hotel.modify_hotel "H1" None None (Some 100%Z))
             (after (Hotel.create_hotel "H1" "Grand Inn" "NYC" 50) fresh_world) in
  available_in "H1" w = Some (VInt 100).
Proof. by vm_compute. Qed.

(** test_cancel_room_success *)
Example test_cancel_room_success :
  let w1 := after (Hotel.reserve_room "H1" "R1")
              (after (Hotel.create_hotel "H1" "Grand Inn" "NYC" 50) fresh_world) in
  available_in "H1" w1 = Some (VInt 49) ∧
  (Hotel.cancel_room (VStr "H1") "R1" w1).1 = Return true ∧
  available_in "H1" (after (Hotel.cancel_room (VStr "H1") "R1") w1) = Some (VInt 50).
Proof. by vm_compute. Qed.

(** test_load_hotels_corrupt_file and test_load_hotels_invalid_record *)
Example test_load_hotels_errors :
  (Hotel._load_hotels (World Unreadable NoFile NoFile [])).1 = Return ∅ ∧
  (Hotel._load_hotels
     (World (Parsed (VDict {["H1" := malformed_hotel_record]})) NoFile NoFile [])).1
  = Return ∅.
Proof. by vm_compute. Qed.

(** test_create_reservation_invalid_hotel and test_no_rooms_available *)
Example test_create_reservation_refused :
  (Reservation.create_reservation "R1" "C1" "INVALID_H" "2024-01-01" "2024-01-05"
     setup_world).1 = Return None ∧
  (Reservation.create_reservation "R2" "C1" "H_TINY" "2024-01-06" "2024-01-10"
     full_world).1 = Return None.
Proof. by vm_compute. Qed.

(** The scenario of one room: R1 takes it, R2 is refused for lack of rooms,
    cancelling R1 gives the room back. *)
Example one_room_scenario :
  available_in "H_TINY" full_world = Some (VInt 0) ∧
  last (stdout (after (Reservation.create_reservation "R2" "C1" "H_TINY"
                         "2024-01-06" "2024-01-10") full_world))
  = Some (NoAvailability "H_TINY") ∧
  (Reservation.cancel_reservation "R1" full_world).1 = Return true ∧
  available_in "H_TINY" (after (Reservation.cancel_reservation "R1") full_world)
  = Some (VInt 1).
Proof. by vm_compute. Qed.

(** * The claims *)




(** C2. [create_reservation] writes the reservation file, or returns a
    reservation, only after its [reserve_room] call on the hotel returned
    [True].  When the reservation id is already in the store, and when the
    customer id is not in the customer store, it returns [None] after the
    already-exists or customer-not-found message, and no file changes. *)
Theorem create_reservation_guarded rid cid hid ci co w o w' :
  Reservation.create_reservation rid cid hid ci co w = (o, w') →
  ((reservations_file w' ≠ reservations_file w ∨ (∃ r, o = Return (Some r))) →
     ∃ es w1, Hotel.reserve_room hid rid (write_stdout es w) = (Return true, w1) ∧
              hotels_file w' = hotels_file w1) ∧
  (∀ R, reservation_store w = Some R → is_Some (R !! rid) →
        o = Return None ∧ unchanged w w' ∧
        printed (AlreadyExists Reservations rid) w w') ∧
  (∀ R C, reservation_store w = Some R → R !! rid = None →
          customer_store w = Some C → C !! cid = None →
          o = Return None ∧ unchanged w w' ∧
          printed (CustomerNotFound cid) w w').
Proof.
  destruct (create_reservation_run rid cid hid ci co w) as [es ->].
  intros Hrun. split; [|split].
  - intros Hpersisted.
    assert (reservations_file w' = reservations_file w → o = Return None ∨
            (∃ e, o = Raise e) → False) as Hno.
    { intros Hsame Ho. destruct Hpersisted as [Hne|[r ->]]; [done|].
      by destruct Ho as [?|[? ?]]. }
    destruct (reservation_store w) as [R|];
      [|injection Hrun as <- <-; destruct Hno; eauto].
    destruct (R !! rid); [injection Hrun as <- <-; destruct Hno; eauto|].
    destruct (customer_store w) as [C|];
      [|injection Hrun as <- <-; destruct Hno; eauto].
    destruct (C !! cid); [|injection Hrun as <- <-; destruct Hno; eauto].
    destruct (reserve_room_frame hid rid (write_stdout es w)) as (es' & _ & _ & Hres).
    destruct (Hotel.reserve_room hid rid (write_stdout es w)) as [[[]|e] w1] eqn:Hroom;
      simpl in Hres; injection Hrun as <- <-.
    + by exists es, w1.
    + destruct Hno; eauto.
    + destruct Hno; eauto.
  - intros R HR [r Hr]. rewrite HR, Hr in Hrun. simplify_eq.
    split; [done|]. split; [apply unchanged_write_stdout|apply printed_write_stdout].
  - intros R C HR Hr HC Hc. rewrite HR, Hr, HC, Hc in Hrun. simplify_eq.
    split; [done|]. split; [apply unchanged_write_stdout|apply printed_write_stdout].
Qed.

Lemma create_reservation_guarded_witness :
  (Reservation.create_reservation "R1" "GHOST_CUSTOMER" "H1" "2024-01-01" "2024-01-05"
     setup_world).1 = Return None ∧
  unchanged setup_world
    (after (Reservation.create_reservation "R1" "GHOST_CUSTOMER" "H1"
              "2024-01-01" "2024-01-05") setup_world) ∧
  printed (CustomerNotFound "GHOST_CUSTOMER") setup_world
    (after (Reservation.create_reservation "R1" "GHOST_CUSTOMER" "H1"
              "2024-01-01" "2024-01-05") setup_world).
Proof.
  apply (proj2 (proj2 (create_reservation_guarded "R1" "GHOST_CUSTOMER" "H1"
                         "2024-01-01" "2024-01-05" setup_world _ _
                         ltac:(apply surjective_pairing)))
           ∅ (default ∅ (customer_store setup_world))).
  - by vm_compute.
  - reflexivity.
  - by vm_compute.
  - by vm_compute.
Defined.



(** C4. On a hotel whose [available_rooms] is 0, [reserve_room] returns
    [False] after printing the no-availability message and writes no file;
    on a hotel id that is absent it returns [False] after printing the
    not-found message, and writes no file either. *)
Theorem reserve_room_refused w hid rid H :
  hotel_store w = Some H →
  (∀ h, H !! hid = Some h → as_int (Hotel.available_rooms h) = Some 0%Z →
        ∃ w', Hotel.reserve_room hid rid w = (Return false, w') ∧
              unchanged w w' ∧ printed (NoAvailability hid) w w') ∧
  (H !! hid = None →
        ∃ w', Hotel.reserve_room hid rid w = (Return false, w') ∧
              unchanged w w' ∧ printed (NotFound Hotels (VStr hid)) w w').
Proof.
  intros HH. destruct (reserve_room_run hid rid w) as [es Hrun].
  rewrite HH in Hrun. split.
  - intros h Hh Ha. rewrite Hh in Hrun.
    unfold reserve_effect, py_le in Hrun. rewrite Ha in Hrun. simpl in Hrun.
    eexists. split; [exact Hrun|].
    split; [apply unchanged_write_stdout | apply printed_write_stdout].
  - intros Hh. rewrite Hh in Hrun.
    eexists. split; [exact Hrun|].
    split; [apply unchanged_write_stdout | apply printed_write_stdout].
Qed.

Lemma reserve_room_refused_witness :
  ∃ w', Hotel.reserve_room "H_TINY" "R2" full_world = (Return false, w') ∧
        unchanged full_world w' ∧ printed (NoAvailability "H_TINY") full_world w'.
Proof.
  apply (proj1 (reserve_room_refused full_world "H_TINY" "R2"
                  (default ∅ (hotel_store full_world)) ltac:(by vm_compute))
           (Hotel.mk (VStr "H_TINY") (VStr "Tiny") (VStr "LA") (VInt 1) (VInt 0)
                     (VList [VStr "R1"]))).
  - by vm_compute.
  - reflexivity.
Defined.




(** C6, as the code has it.  A creation or a modification with a room total
    that is not negative, a successful [reserve_room] and a successful
    [cancel_room] leave [0 <= available_rooms <= total_rooms] true of every
    hotel of which it was true before, and true of a hotel they create; and
    a hotel is always created with [available_rooms] equal to
    [total_rooms]. *)
Theorem hotel_bounds_kept :
  (∀ w w', hotel_mutation w w' →
     ∃ H H', hotel_store w = Some H ∧ hotel_store w' = Some H' ∧
             ∀ k h', H' !! k = Some h' →
                     (∀ h, H !! k = Some h → within_bounds h) → within_bounds h') ∧
  (∀ hid name loc t w h w',
     Hotel.create_hotel hid name loc t w = (Return (Some h), w') →
     Hotel.total_rooms h = VInt t ∧ Hotel.available_rooms h = VInt t ∧
     (hotel_store w' ≫= (.!! hid)) = Some h).
Proof.
  split.
  - intros w w' [hid name loc t h Ht Hcall|hid name loc total Ht Hcall
                |hid rid Hcall|hid rid Hcall].
    + apply create_hotel_Some in Hcall as (H & HH & Hh & -> & HH' & _).
      exists H, (<[hid := Hotel.init (VStr hid) (VStr name) (VStr loc) (VInt t)]> H).
      repeat split; try done. intros k h'.
      destruct (decide (hid = k)) as [<-|Hne].
      * rewrite lookup_insert_eq. intros [= <-] _. exists t, t. simpl.
        repeat split; (done || lia).
      * rewrite lookup_insert_ne by done. eauto.
    + apply modify_hotel_true in Hcall as (H & h & h' & HH & Hh & He & HH' & _).
      exists H, (<[hid := h']> H). repeat split; try done. intros k x' Hx' Hall.
      destruct (insert_preserves within_bounds H hid h h' Hh
                  (bounds_modified name loc total h h' Ht He) k x' Hx')
        as (x & Hx & Himp). eauto.
    + apply reserve_room_true in Hcall as (H & h & h' & HH & Hh & He & HH' & _).
      exists H, (<[hid := h']> H). repeat split; try done. intros k x' Hx' Hall.
      destruct (insert_preserves within_bounds H hid h h' Hh
                  (bounds_reserve rid h h' He) k x' Hx') as (x & Hx & Himp). eauto.
    + apply cancel_room_true in Hcall as (H & key & h & h' & -> & HH & Hh & He & HH' & _).
      exists H, (<[key := h']> H). repeat split; try done. intros k x' Hx' Hall.
      destruct (insert_preserves within_bounds H key h h' Hh
                  (bounds_cancel rid h h' He) k x' Hx') as (x & Hx & Himp). eauto.
  - intros hid name loc t w h w' Hcall.
    apply create_hotel_Some in Hcall as (H & HH & Hh & -> & HH' & _).
    repeat split; try done. rewrite HH'. simpl. apply lookup_insert_eq.
Qed.

Lemma hotel_bounds_kept_witness :
  ∃ H H', hotel_store setup_world = Some H ∧
          hotel_store (after (Hotel.modify_hotel "H1" None None (Some 3%Z)) setup_world)
            = Some H' ∧
          ∀ k h', H' !! k = Some h' →
                  (∀ h, H !! k = Some h → within_bounds h) → within_bounds h'.
Proof.
  apply (proj1 hotel_bounds_kept).
  apply (mutation_modify _ _ "H1" None None (Some 3%Z)).
  - intros n [= <-]. lia.
  - by vm_compute.
Defined.

(** The claim C6 as stated fails.  Nothing rejects a negative room total,
    in [create_hotel] or in [modify_hotel]; and a call on a hotel that is
    out of bounds in the file leaves it out of bounds. *)
Lemma negative_total_breaks_bounds :
  (∃ h, (Hotel.create_hotel "H1" "Grand Inn" "NYC" (-1) fresh_world).1 = Return (Some h) ∧
        (hotel_store (after (Hotel.create_hotel "H1" "Grand Inn" "NYC" (-1)) fresh_world)
           ≫= (.!! "H1")) = Some h ∧
        Hotel.total_rooms h = VInt (-1) ∧
        Hotel.available_rooms h = VInt (-1) ∧
        ¬ within_bounds h) ∧
  (∃ h, (Hotel.modify_hotel "H1" None None (Some (-2)%Z) setup_world).1 = Return true ∧
        (hotel_store (after (Hotel.modify_hotel "H1" None None (Some (-2)%Z)) setup_world)
           ≫= (.!! "H1")) = Some h ∧
        Hotel.total_rooms h = VInt (-2) ∧
        Hotel.available_rooms h = VInt 0 ∧
        ¬ within_bounds h) ∧
  (∃ h, (Hotel.reserve_room "H1" "R1" oversized_world).1 = Return true ∧
        (hotel_store (after (Hotel.reserve_room "H1" "R1") oversized_world)
           ≫= (.!! "H1")) = Some h ∧
        Hotel.total_rooms h = VInt 1 ∧
        Hotel.available_rooms h = VInt 2 ∧
        ¬ within_bounds h).
Proof.
  repeat split; eexists;
    (split; [by vm_compute|]); (split; [by vm_compute|]);
    repeat split;
    intros (t & a & Ht & Ha & Hb); simpl in *; simplify_eq; lia.
Qed.

(** C7. For every Customer, Hotel and Reservation value [x],
    [from_dict (to_dict x)] returns [x]: every field is preserved, the
    hotel's [available_rooms] and [reservations] included. *)
Theorem from_dict_to_dict :
  (∀ c, Customer.from_dict (Customer.to_dict c) = Return c) ∧
  (∀ h, Hotel.from_dict (Hotel.to_dict h) = Return h) ∧
  (∀ r, Reservation.from_dict (Reservation.to_dict r) = Return r).
Proof.
  split; [|split].
  - apply customer_from_to_dict.
  - apply hotel_from_to_dict.
  - apply reservation_from_to_dict.
Qed.

(** C8. A backing mapping that parses and holds one record failing
    [from_dict] among N records that pass it loads as exactly those N
    records: the malformed record is skipped, one diagnostic is printed for
    it, and the load returns normally.  This holds for the three stores. *)
Theorem load_skips_malformed_record :
  skips_malformed Customers Customer.from_dict Customer._load_customers ∧
  skips_malformed Hotels Hotel.from_dict Hotel._load_hotels ∧
  skips_malformed Reservations Reservation.from_dict Reservation._load_reservations.
Proof.
  split; [|split]; apply load_records_skips_malformed.
  - apply customer_from_dict_caught.
  - apply hotel_from_dict_caught.
  - apply reservation_from_dict_caught.
Qed.

Lemma load_skips_malformed_record_witness :
  ∃ m, Hotel._load_hotels malformed_world
       = (Return m, write_stdout [RecordError Hotels "H1" (KeyError "hotel_id")]
                      malformed_world) ∧
       size m = size ({["H2" := valid_hotel_record]} : gmap string value) ∧
       m !! "H1" = None ∧
       ∀ k' v, ({["H2" := valid_hotel_record]} : gmap string value) !! k' = Some v →
               ∃ x, Hotel.from_dict v = Return x ∧ m !! k' = Some x.
Proof.
  apply (proj1 (proj2 load_skips_malformed_record)
           {["H2" := valid_hotel_record]} "H1" malformed_hotel_record).
  - reflexivity.
  - intros k' v [<- <-]%lookup_singleton_Some. eexists. reflexivity.
  - reflexivity.
  - reflexivity.
Defined.



(** C10. [reserve_room] never looks at the occupant list: on a hotel with
    integer counts, at least 2 available rooms and any occupant list [l],
    two calls with the same reservation id both succeed and leave the id
    twice more on the list; [cancel_room] with that id then succeeds and
    takes away one occurrence only, the first. *)
Theorem reserve_room_accepts_duplicate w hid rid H h a t l :
  hotel_store w = Some H →
  H !! hid = Some h →
  as_int (Hotel.available_rooms h) = Some a →
  (2 ≤ a)%Z →
  as_int (Hotel.total_rooms h) = Some t →
  Hotel.reservations h = VList l →
  ∃ w1 w2 w3 h2 h3,
    Hotel.reserve_room hid rid w = (Return true, w1) ∧
    Hotel.reserve_room hid rid w1 = (Return true, w2) ∧
    hotel_store w2 = Some (<[hid := h2]> H) ∧
    Hotel.reservations h2 = VList (l ++ [VStr rid; VStr rid]) ∧
    Hotel.available_rooms h2 = VInt (a - 2) ∧
    Hotel.cancel_room (VStr hid) rid w2 = (Return true, w3) ∧
    hotel_store w3 = Some (<[hid := h3]> H) ∧
    Hotel.reservations h3 = VList (remove_first rid (l ++ [VStr rid; VStr rid])) ∧
    occurrences rid (l ++ [VStr rid; VStr rid]) = (occurrences rid l + 2)%nat ∧
    occurrences rid (remove_first rid (l ++ [VStr rid; VStr rid]))
      = (occurrences rid l + 1)%nat.
Proof.
  intros HH Hh Ha Ha2 Ht Hl.
  set (l2 := l ++ [VStr rid; VStr rid]).
  set (h1 := Hotel.set_reservations (VList (l ++ [VStr rid]))
               (Hotel.set_available_rooms (VInt (a - 1)) h)).
  set (h2 := Hotel.set_reservations (VList l2)
               (Hotel.set_available_rooms (VInt (a - 2)) h1)).
  set (h3 := Hotel.set_available_rooms
               (if (a - 2 + 1 <? t)%Z then VInt (a - 2 + 1) else Hotel.total_rooms h2)
               (Hotel.set_reservations (VList (remove_first rid l2)) h2)).
  assert ((l ++ [VStr rid]) ++ [VStr rid] = l2) as Hl2.
  { unfold l2. by rewrite <-(assoc_L (++)). }
  assert (existsb (is_str rid) l2 = true) as Hin.
  { unfold l2. rewrite existsb_app. simpl. rewrite bool_decide_eq_true_2 by done.
    by rewrite orb_true_r. }
  assert (occurrences rid l2 = (occurrences rid l + 2)%nat) as Hocc.
  { unfold l2. rewrite occurrences_app. unfold occurrences at 2. simpl.
    by rewrite bool_decide_eq_true_2. }
  destruct (reserve_room_ok hid rid w H h h1 HH Hh) as (w1 & Hr1 & HH1).
  { apply reserve_effect_Some. exists a, l. repeat split; (done || lia). }
  destruct (reserve_room_ok hid rid w1 _ h1 h2 HH1 (lookup_insert_eq _ _ _))
    as (w2 & Hr2 & HH2).
  { apply reserve_effect_Some. exists (a - 1)%Z, (l ++ [VStr rid]).
    repeat split; try (done || lia).
    unfold h2. rewrite Hl2. by replace (a - 1 - 1)%Z with (a - 2)%Z by lia. }
  rewrite insert_insert_eq in HH2.
  destruct (cancel_room_ok hid rid w2 _ h2 h3 HH2 (lookup_insert_eq _ _ _))
    as (w3 & Hc & HH3).
  { apply cancel_effect_Some. exists (a - 2)%Z, t, l2. by repeat split. }
  rewrite insert_insert_eq in HH3.
  exists w1, w2, w3, h2, h3. repeat split; try done.
  apply (occurrences_remove_first rid) in Hin. lia.
Qed.

Lemma reserve_room_accepts_duplicate_witness :
  ∃ w1 w2 w3 h2 h3,
    Hotel.reserve_room "H1" "R1" setup_world = (Return true, w1) ∧
    Hotel.reserve_room "H1" "R1" w1 = (Return true, w2) ∧
    hotel_store w2 = Some (<["H1" := h2]> (default ∅ (hotel_store setup_world))) ∧
    Hotel.reservations h2 = VList [VStr "R1"; VStr "R1"] ∧
    Hotel.available_rooms h2 = VInt 3 ∧
    Hotel.cancel_room (VStr "H1") "R1" w2 = (Return true, w3) ∧
    hotel_store w3 = Some (<["H1" := h3]> (default ∅ (hotel_store setup_world))) ∧
    Hotel.reservations h3 = VList [VStr "R1"] ∧
    occurrences "R1" [VStr "R1"; VStr "R1"] = 2%nat ∧
    occurrences "R1" [VStr "R1"] = 1%nat.
Proof.
  apply (reserve_room_accepts_duplicate setup_world "H1" "R1"
           (default ∅ (hotel_store setup_world))
           (Hotel.init (VStr "H1") (VStr "Grand Inn") (VStr "NYC") (VInt 5)) 5 5 []).
  - by vm_compute.
  - by vm_compute.
  - reflexivity.
  - lia.
  - reflexivity.
  - reflexivity.
Defined.

(** * Further properties of the code *)

(** ** Loaders and serialisation *)

Section save_then_load.
Context {E : Type} (s : store) (from_dict : value → outcome E) (to_dict : E → value).
Hypothesis from_dict_caught : ∀ v e, from_dict v = Raise e → caught e = true.
Hypothesis from_to_dict : ∀ x, from_dict (to_dict x) = Return x.

End save_then_load.

Lemma load_records_not_mapping {E} s (from_dict : value → outcome E) w v :
  file_of s w = Parsed v → (∀ d, v ≠ VDict d) →
  load_records s from_dict w = (Raise AttributeError, w).
Proof.
  intros Hf Hv. unfold load_records. rewrite Hf.
  destruct v as [| | | | |d]; try done. by destruct (Hv d).
Qed.


(** X2. [Customer.from_dict] and [Reservation.from_dict] accept exactly the
    mappings that hold every required key, and keep the values as they are,
    of whatever type; extra keys are ignored.  Anything that is not a mapping
    raises [TypeError]; a mapping that is refused raises the [KeyError] of a
    required key it lacks. *)
Theorem from_dict_accepts :
  (∀ v c, Customer.from_dict v = Return c ↔
          ∃ d, v = VDict d ∧
               d !! "customer_id" = Some (Customer.customer_id c) ∧
               d !! "name" = Some (Customer.name c) ∧
               d !! "email" = Some (Customer.email c) ∧
               d !! "phone" = Some (Customer.phone c)) ∧
  (∀ v r, Reservation.from_dict v = Return r ↔
          ∃ d, v = VDict d ∧
               d !! "reservation_id" = Some (Reservation.reservation_id r) ∧
               d !! "customer_id" = Some (Reservation.customer_id r) ∧
               d !! "hotel_id" = Some (Reservation.hotel_id r) ∧
               d !! "check_in" = Some (Reservation.check_in r) ∧
               d !! "check_out" = Some (Reservation.check_out r)) ∧
  (∀ v, (∀ d, v ≠ VDict d) →
        Customer.from_dict v = Raise TypeError ∧
        Reservation.from_dict v = Raise TypeError) ∧
  (∀ d e, Customer.from_dict (VDict d) = Raise e →
          ∃ k, e = KeyError k ∧ d !! k = None ∧
               k ∈ ["customer_id"; "name"; "email"; "phone"]) ∧
  (∀ d e, Reservation.from_dict (VDict d) = Raise e →
          ∃ k, e = KeyError k ∧ d !! k = None ∧
               k ∈ ["reservation_id"; "customer_id"; "hotel_id"; "check_in"; "check_out"]).
Proof.
  repeat split.
  - destruct v as [| | | | |d]; try done.
    unfold Customer.from_dict, subscript.
    repeat match goal with
           | |- context [d !! ?k] => let H := fresh in destruct (d !! k) eqn:H; [|done]
           end.
    intros [= <-]. by exists d.
  - intros (d & -> & H1 & H2 & H3 & H4).
    unfold Customer.from_dict, subscript. rewrite H1, H2, H3, H4. by destruct c.
  - destruct v as [| | | | |d]; try done.
    unfold Reservation.from_dict, subscript.
    repeat match goal with
           | |- context [d !! ?k] => let H := fresh in destruct (d !! k) eqn:H; [|done]
           end.
    intros [= <-]. by exists d.
  - intros (d & -> & H1 & H2 & H3 & H4 & H5).
    unfold Reservation.from_dict, subscript. rewrite H1, H2, H3, H4, H5. by destruct r.
  - destruct v as [| | | | |d]; try done. by destruct (H d).
  - destruct v as [| | | | |d]; try done. by destruct (H d).
  - intros d e. unfold Customer.from_dict, subscript.
    repeat match goal with
           | |- context [d !! ?k] =>
               let H := fresh in
               destruct (d !! k) eqn:H;
               [|intros [= <-]; exists k; repeat split; [done|set_solver]]
           end.
    done.
  - intros d e. unfold Reservation.from_dict, subscript.
    repeat match goal with
           | |- context [d !! ?k] =>
               let H := fresh in
               destruct (d !! k) eqn:H;
               [|intros [= <-]; exists k; repeat split; [done|set_solver]]
           end.
    done.
Qed.

(** X3. [Hotel.from_dict] accepts exactly the mappings that hold [hotel_id],
    [name], [location] and [total_rooms]; a missing [available_rooms]
    defaults to the total and a missing [reservations] to the empty list.
    No value is checked: a total that is text is accepted. *)
Theorem hotel_from_dict_accepts v h :
  Hotel.from_dict v = Return h ↔
  ∃ d, v = VDict d ∧
       d !! "hotel_id" = Some (Hotel.hotel_id h) ∧
       d !! "name" = Some (Hotel.name h) ∧
       d !! "location" = Some (Hotel.location h) ∧
       d !! "total_rooms" = Some (Hotel.total_rooms h) ∧
       Hotel.available_rooms h = default (Hotel.total_rooms h) (d !! "available_rooms") ∧
       Hotel.reservations h = default (VList []) (d !! "reservations").
Proof.
  split.
  - destruct v as [| | | | |d]; try done.
    unfold Hotel.from_dict, subscript, dict_get.
    repeat match goal with
           | |- context [match d !! ?k with Some _ => Return _ | None => _ end] =>
               let H := fresh in destruct (d !! k) eqn:H; [|done]
           end.
    intros [= <-]. by exists d.
  - intros (d & -> & H1 & H2 & H3 & H4 & H5 & H6).
    unfold Hotel.from_dict, subscript, dict_get. rewrite H1, H2, H3, H4.
    destruct h. simpl in *. by subst.
Qed.

(** ** Creating and deleting hotels *)






(** X6. When the hotel file parses to something that is not a mapping (a
    list, a number, a string, [null]), every operation on hotels raises
    [AttributeError] out of its load and changes nothing, not even the
    output. *)
Theorem hotel_file_not_mapping w v :
  hotels_file w = Parsed v →
  (∀ d, v ≠ VDict d) →
  (∀ hid name loc t, Hotel.create_hotel hid name loc t w = (Raise AttributeError, w)) ∧
  (∀ hid, Hotel.delete_hotel hid w = (Raise AttributeError, w)) ∧
  (∀ hid name loc total,
     Hotel.modify_hotel hid name loc total w = (Raise AttributeError, w)) ∧
  (∀ hid rid, Hotel.reserve_room hid rid w = (Raise AttributeError, w)) ∧
  (∀ hid rid, Hotel.cancel_room hid rid w = (Raise AttributeError, w)).
Proof.
  intros Hf Hv.
  pose proof (load_records_not_mapping Hotels Hotel.from_dict w v Hf Hv) as Hload.
  repeat split; intros;
    unfold Hotel.create_hotel, Hotel.delete_hotel, Hotel.modify_hotel,
      Hotel.reserve_room, Hotel.cancel_room, Hotel._load_hotels, mbind, M_bind;
    by rewrite Hload.
Qed.

Lemma hotel_file_not_mapping_witness :
  (∀ hid name loc t,
     Hotel.create_hotel hid name loc t list_world = (Raise AttributeError, list_world)) ∧
  (∀ hid, Hotel.delete_hotel hid list_world = (Raise AttributeError, list_world)) ∧
  (∀ hid name loc total,
     Hotel.modify_hotel hid name loc total list_world
     = (Raise AttributeError, list_world)) ∧
  (∀ hid rid, Hotel.reserve_room hid rid list_world = (Raise AttributeError, list_world)) ∧
  (∀ hid rid, Hotel.cancel_room hid rid list_world = (Raise AttributeError, list_world)).
Proof.
  apply (hotel_file_not_mapping list_world (VList [])); [reflexivity|done].
Defined.





(** ** Reserving and releasing rooms *)



(** X10. [cancel_room] returns [False] and writes nothing when the hotel id is
    not stored (a [None] or a number given as id is just such an id), and
    when the reservation id is not on the occupant list of the hotel; the
    two cases print different messages. *)
Theorem cancel_room_refused w hid rid H :
  hotel_store w = Some H →
  (H !! hid = None →
     ∃ w', Hotel.cancel_room (VStr hid) rid w = (Return false, w') ∧
           unchanged w w' ∧ printed (NotFound Hotels (VStr hid)) w w') ∧
  (∀ v, v = VNone ∨ (∃ n, v = VInt n) ∨ (∃ b, v = VBool b) →
     ∃ w', Hotel.cancel_room v rid w = (Return false, w') ∧
           unchanged w w' ∧ printed (NotFound Hotels v) w w') ∧
  (∀ h l, H !! hid = Some h → Hotel.reservations h = VList l →
          existsb (is_str rid) l = false →
     ∃ w', Hotel.cancel_room (VStr hid) rid w = (Return false, w') ∧
           unchanged w w' ∧
           printed (ReservationNotOnRecord rid (VStr hid)) w w').
Proof.
  intros HH. split; [|split].
  - intros Hh. destruct (cancel_room_run (VStr hid) rid w) as [es Hrun].
    rewrite HH in Hrun. simpl in Hrun. rewrite Hh in Hrun.
    eexists. split; [exact Hrun|].
    split; [apply unchanged_write_stdout|apply printed_write_stdout].
  - intros v Hv. destruct (cancel_room_run v rid w) as [es Hrun].
    rewrite HH in Hrun.
    assert (py_lookup H v = Return None) as Hnone
      by (destruct Hv as [->|[[n ->]|[b ->]]]; done).
    rewrite Hnone in Hrun. eexists. split; [exact Hrun|].
    split; [apply unchanged_write_stdout|apply printed_write_stdout].
  - intros h l Hh Hl Hin. destruct (cancel_room_run (VStr hid) rid w) as [es Hrun].
    rewrite HH in Hrun. simpl in Hrun. rewrite Hh in Hrun. simpl in Hrun.
    unfold cancel_effect, py_contains in Hrun. rewrite Hl, Hin in Hrun.
    eexists. split; [exact Hrun|].
    split; [apply unchanged_write_stdout|apply printed_write_stdout].
Qed.

Lemma cancel_room_refused_witness :
  ∃ w', Hotel.cancel_room (VStr "H1") "NONEXISTENT" setup_world = (Return false, w') ∧
        unchanged setup_world w' ∧
        printed (ReservationNotOnRecord "NONEXISTENT" (VStr "H1")) setup_world w'.
Proof.
  apply (proj2 (proj2 (cancel_room_refused setup_world "H1" "NONEXISTENT"
                         (default ∅ (hotel_store setup_world)) ltac:(by vm_compute)))
           (Hotel.init (VStr "H1") (VStr "Grand Inn") (VStr "NYC") (VInt 5)) []);
    by vm_compute.
Defined.






(** ** Modifying a hotel *)




(** ** What a write does to the rest of the file *)







(** ** What the calls on hotels never do *)




(** X17. [from_dict] checks no type, so a stored hotel may hold anything in
    its fields; [reserve_room] then raises instead of returning.  When
    [available_rooms] is not a number it raises [TypeError]; when it is a
    positive number but [reservations] is not a list it raises
    [AttributeError]; in both cases no file is written. *)
Theorem reserve_room_ill_typed w hid rid H h :
  hotel_store w = Some H →
  H !! hid = Some h →
  (as_int (Hotel.available_rooms h) = None →
     ∃ w', Hotel.reserve_room hid rid w = (Raise TypeError, w') ∧ unchanged w w') ∧
  (∀ a, as_int (Hotel.available_rooms h) = Some a → (0 < a)%Z →
        (∀ l, Hotel.reservations h ≠ VList l) →
     ∃ w', Hotel.reserve_room hid rid w = (Raise AttributeError, w') ∧ unchanged w w').
Proof.
  intros HH Hh. destruct (reserve_room_run hid rid w) as [es Hrun].
  rewrite HH, Hh in Hrun. unfold reserve_effect, py_le, py_add, py_append in Hrun.
  split.
  - intros Ha. rewrite Ha in Hrun. eexists. split; [exact Hrun|].
    apply unchanged_write_stdout.
  - intros a Ha Hpos Hl. rewrite Ha in Hrun.
    destruct (Z.leb_spec a 0); [lia|].
    destruct (Hotel.reservations h) as [| | | |l|] eqn:Hres;
      try (eexists; split; [exact Hrun|apply unchanged_write_stdout]).
    by destruct (Hl l).
Qed.

Lemma reserve_room_ill_typed_witness :
  ∃ w', Hotel.reserve_room "H1" "R2" ill_typed_world = (Raise TypeError, w') ∧
        unchanged ill_typed_world w'.
Proof.
  apply (proj1 (reserve_room_ill_typed ill_typed_world "H1" "R2"
                  {["H1" := ill_typed_hotel]} ill_typed_hotel
                  ltac:(by vm_compute) ltac:(by vm_compute))).
  reflexivity.
Defined.

Lemma cancel_room_raise hid rid w e :
  (Hotel.cancel_room hid rid w).1 = Raise e →
  unchanged w (Hotel.cancel_room hid rid w).2.
Proof.
  destruct (cancel_room_run hid rid w) as [es ->].
  destruct (hotel_store w) as [H|]; [|intros _; apply unchanged_write_stdout].
  destruct (py_lookup H hid) as [[[key h]|]|];
    [|intros _; apply unchanged_write_stdout..].
  destruct (cancel_effect rid h) as [[h'|]|];
    [done|intros _; apply unchanged_write_stdout..].
Qed.

(** X18. [cancel_reservation] removes the record only if its [cancel_room]
    call returns: when that call raises (the hotel file is not a mapping,
    the occupant list of the hotel is not a list, a count is not a number),
    [cancel_reservation] raises the same exception, no file is written and
    the reservation record stays. *)
Theorem cancel_reservation_propagates rid w R r e :
  reservation_store w = Some R →
  R !! rid = Some r →
  (Hotel.cancel_room (Reservation.hotel_id r) rid w).1 = Raise e →
  ∃ w', Reservation.cancel_reservation rid w = (Raise e, w') ∧
        unchanged w w' ∧
        reservation_store w' = Some R.
Proof.
  intros HR Hr Hroom. destruct (cancel_reservation_run rid w) as [es Hrun].
  rewrite HR, Hr in Hrun.
  destruct (cancel_room_write_stdout (Reservation.hotel_id r) rid es w) as [Hfst _].
  rewrite Hroom in Hfst.
  pose proof (cancel_room_raise _ _ _ _ Hfst) as Hun.
  destruct (Hotel.cancel_room (Reservation.hotel_id r) rid (write_stdout es w))
    as [o w1] eqn:Hcall.
  simpl in Hfst, Hun. subst o. exists w1. split; [done|].
  assert (unchanged w w1) as Hun' by (destruct Hun as (? & ? & ?); by repeat split).
  split; [done|]. by rewrite (reservation_store_unchanged w w1).
Qed.

Lemma cancel_reservation_propagates_witness :
  ∃ w', Reservation.cancel_reservation "R1" ill_typed_world = (Raise TypeError, w') ∧
        unchanged ill_typed_world w' ∧
        reservation_store w' = Some (default ∅ (reservation_store ill_typed_world)).
Proof.
  apply (cancel_reservation_propagates "R1" ill_typed_world
           (default ∅ (reservation_store ill_typed_world))
           (Reservation.mk (VStr "R1") (VStr "C1") (VStr "H1")
                           (VStr "2024-01-01") (VStr "2024-01-05"))).
  - by vm_compute.
  - by vm_compute.
  - by vm_compute.
Defined.

(** ** Customers *)












(** ** The coordinator, call by call *)













(** ** Releasing a room *)



(** ** The properties without premises, on the scenarios *)

Lemma from_dict_accepts_witness :
  ∃ k, KeyError "customer_id" = KeyError k ∧
       ({["incomplete" := VBool true]} : gmap string value) !! k = None ∧
       k ∈ ["customer_id"; "name"; "email"; "phone"].
Proof.
  apply (proj1 (proj2 (proj2 (proj2 from_dict_accepts)))
           {["incomplete" := VBool true]} (KeyError "customer_id")).
  reflexivity.
Defined.

Lemma hotel_from_dict_accepts_witness :
  Hotel.from_dict
    (VDict (<["hotel_id" := VStr "H1"]> (<["name" := VStr "Grand Inn"]>
           (<["location" := VStr "NYC"]> (<["total_rooms" := VStr "fifty"]> ∅)))))
  = Return (Hotel.init (VStr "H1") (VStr "Grand Inn") (VStr "NYC") (VStr "fifty")).
Proof.
  apply (proj2 (hotel_from_dict_accepts _ _)).
  eexists. split; [reflexivity|]. by vm_compute.
Defined.

